(** * SwimBench backend ([main.py]): start-up configuration and the
    knowledge-reload endpoint.

  [main.py] is a single module.  Two parts of it are ordinary code and are
  embedded here:

  - section 2 of the module (lines 31-44): the environment is read with
    [os.getenv] and start-up is aborted with a [ValueError] when the
    OpenAI key is missing ([Module Startup]);
  - section 8 (lines 224-272): the [/loadknowledge] endpoint, an [async]
    function that awaits three calls of the knowledge base inside one
    [try]/[except] ([Module Reload]).

  The arguments the module passes to the store constructors, the CORS
  middleware of section 7 and the [__main__] block are embedded in
  [Module Wiring] and [Module Main]; the library constructors themselves
  are parameters.  The agent's prompt and the language model are
  configuration handed to libraries: they contain no function of this
  repository and are not modelled. *)

From stdpp Require Import base option list strings gmap.
From Stdlib Require Import ZArith.

Local Open Scope string_scope.
Local Open Scope list_scope.

(* ===================================================================== *)
(** ** Section 2 of [main.py]: environment variables                      *)
(* ===================================================================== *)

Module Startup.

(** The process environment as [os.getenv] sees it once [load_dotenv()]
    has run: a finite map from names to values.  A variable may be present
    with the empty string as its value. *)
Abbreviation Environ := (gmap string string).

(** [os.getenv(key)]: [None] when the variable is absent. *)
Definition getenv (environ : Environ) (key : string) : option string :=
  environ !! key.

(** [os.getenv(key, default)]. *)
Definition getenv_default (environ : Environ) (key dflt : string) : string :=
  default dflt (environ !! key).

(** Python truth value of an [Optional[str]]: [None] and [''] are false. *)
Definition truthy (v : option string) : bool :=
  match v with
  | None => false
  | Some s => negb (String.eqb s "")
  end.

(** The module-level names bound by lines 32-44. *)
Record Settings := {
  OPENAI_API_KEY : option string;
  DATABASE_CONNECTION_STRING : option string;
  DATABASE_HOST : option string;
  DATABASE_PORT : option string;
  DATABASE_NAME : option string;
  DATABASE_USER : option string;
  DATABASE_PASSWORD : option string;
  ENV : string;
  DB_URL : option string
}.

Inductive StartupError := ValueError (msg : string).

(** Lines 32-44, in order: seven [os.getenv] reads, [ENV] with its
    default, the check of the key, then [DB_URL]. *)
Definition load_environment (environ : Environ) : StartupError + Settings :=
  let openai_api_key := getenv environ "OPENAI_API_KEY" in
  let database_connection_string := getenv environ "DATABASE_CONNECTION_STRING" in
  let database_host := getenv environ "DATABASE_HOST" in
  let database_port := getenv environ "DATABASE_PORT" in
  let database_name := getenv environ "DATABASE_NAME" in
  let database_user := getenv environ "DATABASE_USER" in
  let database_password := getenv environ "DATABASE_PASSWORD" in
  let env := getenv_default environ "ENV" "development" in
  if negb (truthy openai_api_key) then
    inl (ValueError "OPENAI_API_KEY not set in .env")
  else
    inr {| OPENAI_API_KEY := openai_api_key;
           DATABASE_CONNECTION_STRING := database_connection_string;
           DATABASE_HOST := database_host;
           DATABASE_PORT := database_port;
           DATABASE_NAME := database_name;
           DATABASE_USER := database_user;
           DATABASE_PASSWORD := database_password;
           ENV := env;
           DB_URL := database_connection_string |}.

(** Start-up is aborted: the block raised. *)
Definition aborts (environ : Environ) : Prop :=
  exists e, load_environment environ = inl e.

(** The database connection variables read by lines 33-38. *)
Definition database_variables : list string :=
  [ "DATABASE_CONNECTION_STRING"; "DATABASE_HOST"; "DATABASE_PORT";
    "DATABASE_NAME"; "DATABASE_USER"; "DATABASE_PASSWORD" ].

(** The environment of a deployment whose [.env] has the line
    [OPENAI_API_KEY=] (present, empty) and a full database configuration. *)
Definition empty_key_environ : Environ :=
  <[ "OPENAI_API_KEY" := "" ]>
    (<[ "DATABASE_CONNECTION_STRING" := "postgresql://ai:ai@localhost:5432/ai" ]> ∅).

(** An environment with the key and no database variable at all. *)
Definition key_only_environ : Environ :=
  {[ "OPENAI_API_KEY" := "sk-test" ]}.

End Startup.


(* ===================================================================== *)
(** ** Section 8 of [main.py]: the [/loadknowledge] endpoint              *)
(* ===================================================================== *)

Module Reload.

(** An instance of Python's [Exception]; [str(e)] is its message.  What
    [except Exception] does not catch (task cancellation, interpreter exit)
    is outside the model. *)
Inductive PyException := Exception (message : string).

Definition str (e : PyException) : string :=
  match e with Exception m => m end.

(** [fastapi.HTTPException(status_code=..., detail=...)]. *)
Record HTTPException := { status_code : Z; detail : string }.

(** The keyword arguments of one [knowledge.add_content_async] call. *)
Record ContentRequest := {
  name : string;
  url : string;
  metadata : list (string * string)
}.

(** Lines 237-246. *)
Definition usa_swimming_standards : ContentRequest :=
  {| name := "USA Swimming Motivational Time Standards 2024-2028";
     url := "https://websitedevsa.blob.core.windows.net/sitefinity/docs/default-source/timesdocuments/time-standards/2025/2028-motivational-standards-age-group.pdf";
     metadata := [ ("user_tag", "USA Swimming Standards");
                   ("content_type", "standards");
                   ("source", "PDF");
                   ("year", "2024-2028") ] |}.

(** Lines 249-257. *)
Definition college_recruiting_standards : ContentRequest :=
  {| name := "College Swimming Recruiting Standards";
     url := "https://www.ncsasports.org/mens-swimming/college-swimming-recruiting-times";
     metadata := [ ("user_tag", "College Recruiting");
                   ("content_type", "recruiting");
                   ("source", "NCSA") ] |}.

(** The dictionary returned by lines 261-268 (sent with status 200). *)
Record Body := {
  status : string;
  message : string;
  loaded_documents : list string
}.

Definition success_body : Body :=
  {| status := "success";
     message := "SwimBench knowledge base loaded successfully";
     loaded_documents := [ "USA Swimming Standards 2024-2028";
                           "College Recruiting Standards" ] |}.

Inductive Level := INFO | ERROR.

(** The calls a coroutine makes on the knowledge base, as they reach it. *)
Inductive Call :=
| CallClear
| CallAddContent (req : ContentRequest)
| CallSearch (query : string).

(** The knowledge base is the [agno] library's object over Postgres: its code
    is not part of this repository, so its three operations are parameters.
    [Store] is the state of the vector table, [Result] what
    [add_content_async] returns, [Hit] one search result.  [clear] and
    [add_content_async] may change the store and may raise; so may
    [search], which leaves the store as it is. *)
Record KnowledgeBase (Store Result Hit : Type) := {
  kb_clear : Store -> Store * (PyException + unit);
  kb_add_content : ContentRequest -> Store -> Store * (PyException + Result);
  kb_search : string -> Store -> PyException + list Hit
}.
Arguments kb_clear {Store Result Hit} _ _.
Arguments kb_add_content {Store Result Hit} _ _ _.
Arguments kb_search {Store Result Hit} _ _ _.

(** What a run can change: the store, the module's logger, and (ghost) the
    sequence of calls that reached the knowledge base. *)
Record World (Store : Type) := {
  store : Store;
  log : list (Level * string);
  calls : list Call
}.
Arguments store {Store} _.
Arguments log {Store} _.
Arguments calls {Store} _.
Arguments Build_World {Store} _ _ _.

Section Coroutines.
Context {Store Result Hit : Type}.

(** An [async] function body: synchronous logging, and [await]s of the
    knowledge base whose continuation receives the call's outcome.  [E] is
    the type of the exceptions the body lets escape, [A] of its value. *)
Inductive Coro (E A : Type) : Type :=
| Ret (a : A)
| Raise (e : E)
| Log (lvl : Level) (msg : string) (k : Coro E A)
| AwaitClear (k : PyException + unit -> Coro E A)
| AwaitAddContent (req : ContentRequest) (k : PyException + Result -> Coro E A)
| AwaitSearch (query : string) (k : PyException + list Hit -> Coro E A).
Arguments Ret {E A} _.
Arguments Raise {E A} _.
Arguments Log {E A} _ _ _.
Arguments AwaitClear {E A} _.
Arguments AwaitAddContent {E A} _ _.
Arguments AwaitSearch {E A} _ _.

Fixpoint bind {E A B} (c : Coro E A) (f : A -> Coro E B) : Coro E B :=
  match c with
  | Ret a => f a
  | Raise e => Raise e
  | Log lvl msg k => Log lvl msg (bind k f)
  | AwaitClear k => AwaitClear (fun r => bind (k r) f)
  | AwaitAddContent req k => AwaitAddContent req (fun r => bind (k r) f)
  | AwaitSearch q k => AwaitSearch q (fun r => bind (k r) f)
  end.

#[local] Instance coro_ret {E} : MRet (Coro E) := fun A a => Ret a.
#[local] Instance coro_bind {E} : MBind (Coro E) := fun A B f c => bind c f.

(** [try: body except Exception as e: handler e]. *)
Fixpoint try_except {E E' A} (body : Coro E A) (handler : E -> Coro E' A)
  : Coro E' A :=
  match body with
  | Ret a => Ret a
  | Raise e => handler e
  | Log lvl msg k => Log lvl msg (try_except k handler)
  | AwaitClear k => AwaitClear (fun r => try_except (k r) handler)
  | AwaitAddContent req k =>
      AwaitAddContent req (fun r => try_except (k r) handler)
  | AwaitSearch q k => AwaitSearch q (fun r => try_except (k r) handler)
  end.

(** An awaited call raises in the caller what the library raised. *)
Definition outcome {A} (r : PyException + A) : Coro PyException A :=
  match r with
  | inl e => Raise e
  | inr a => Ret a
  end.

(** [logger.info(msg)], [logger.error(msg)]. *)
Definition logger_info {E} (msg : string) : Coro E unit := Log INFO msg (Ret tt).
Definition logger_error {E} (msg : string) : Coro E unit := Log ERROR msg (Ret tt).

(** [await knowledge.clear()]. *)
Definition knowledge_clear : Coro PyException unit := AwaitClear outcome.

(** [await knowledge.add_content_async(name=..., url=..., metadata=...)]. *)
Definition knowledge_add_content_async (req : ContentRequest)
  : Coro PyException Result :=
  AwaitAddContent req outcome.

(** Lines 225-272. *)
Definition load_knowledge : Coro HTTPException Body :=
  try_except
    (logger_info "Starting SwimBench knowledge loading...";;
     knowledge_clear;;
     result1 ← knowledge_add_content_async usa_swimming_standards;
     result2 ← knowledge_add_content_async college_recruiting_standards;
     logger_info "SwimBench knowledge loading completed successfully";;
     mret success_body)
    (fun e =>
       logger_error ("Error loading SwimBench knowledge: " +:+ str e);;
       Raise {| status_code := 500;
                detail := "Error loading knowledge: " +:+ str e |}).

(** The read a conversation turn makes: the agent is built with
    [knowledge=knowledge, search_knowledge=True] (lines 191-193), so a turn
    awaits one search of the same knowledge base. *)
Definition search_knowledge (query : string) : Coro PyException (list Hit) :=
  AwaitSearch query outcome.

(** *** Running a coroutine against a knowledge base *)

Variable K : KnowledgeBase Store Result Hit.

Definition emit (lvl : Level) (msg : string) (w : World Store) : World Store :=
  Build_World (store w) (log w ++ [(lvl, msg)]) (calls w).

Definition called (c : Call) (s : Store) (w : World Store) : World Store :=
  Build_World s (log w) (calls w ++ [c]).

(** A coroutine run alone, from start to finish. *)
Fixpoint run {E A} (c : Coro E A) (w : World Store) : World Store * (E + A) :=
  match c with
  | Ret a => (w, inr a)
  | Raise e => (w, inl e)
  | Log lvl msg k => run k (emit lvl msg w)
  | AwaitClear k =>
      let '(s, r) := kb_clear K (store w) in
      run (k r) (called CallClear s w)
  | AwaitAddContent req k =>
      let '(s, r) := kb_add_content K req (store w) in
      run (k r) (called (CallAddContent req) s w)
  | AwaitSearch q k =>
      run (k (kb_search K q (store w))) (called (CallSearch q) (store w) w)
  end.

(** Synchronous code between two [await]s runs without suspension. *)
Fixpoint sync {E A} (c : Coro E A) (w : World Store) : World Store * Coro E A :=
  match c with
  | Log lvl msg k => sync k (emit lvl msg w)
  | _ => (w, c)
  end.

(** One turn of the event loop for a task: the task runs up to its next
    [await], the awaited call takes effect on the store, and the task runs
    on to the [await] after it, where other tasks can be scheduled.  Each
    library call is taken as one atomic effect. *)
Definition step {E A} (c : Coro E A) (w : World Store) : World Store * Coro E A :=
  let '(w1, c1) := sync c w in
  match c1 with
  | AwaitClear k =>
      let '(s, r) := kb_clear K (store w1) in
      sync (k r) (called CallClear s w1)
  | AwaitAddContent req k =>
      let '(s, r) := kb_add_content K req (store w1) in
      sync (k r) (called (CallAddContent req) s w1)
  | AwaitSearch q k =>
      sync (k (kb_search K q (store w1))) (called (CallSearch q) (store w1) w1)
  | _ => (w1, c1)
  end.

(** A finished coroutine and what it finished with. *)
Definition finished {E A} (c : Coro E A) : option (E + A) :=
  match c with
  | Ret a => Some (inr a)
  | Raise e => Some (inl e)
  | _ => None
  end.

(** Two tasks on one event loop and one knowledge base: a reload request and
    a conversation turn that searches. *)
Inductive Task := TReload | TTurn.

Record System := {
  world : World Store;
  reload : Coro HTTPException Body;
  turn : Coro PyException (list Hit)
}.

Definition initial (w : World Store) (query : string) : System :=
  {| world := w; reload := load_knowledge; turn := search_knowledge query |}.

Definition schedule (sys : System) (t : Task) : System :=
  match t with
  | TReload =>
      let '(w, c) := step (reload sys) (world sys) in
      {| world := w; reload := c; turn := turn sys |}
  | TTurn =>
      let '(w, c) := step (turn sys) (world sys) in
      {| world := w; reload := reload sys; turn := c |}
  end.

(** The event loop following a given order of wake-ups. *)
Definition exec (order : list Task) (sys : System) : System :=
  fold_left schedule order sys.

End Coroutines.

Arguments Ret {Result Hit E A} _.
Arguments Raise {Result Hit E A} _.
Arguments Log {Result Hit E A} _ _ _.
Arguments AwaitClear {Result Hit E A} _.
Arguments AwaitAddContent {Result Hit E A} _ _.
Arguments AwaitSearch {Result Hit E A} _ _.

(** *** A concrete knowledge base for examples *)

(** One row of the vector table. *)
Record Chunk := { source_document : string; text_span : string }.

Definition chunk_of (req : ContentRequest) : Chunk :=
  {| source_document := name req; text_span := url req |}.

(** Modelled from the spec: the knowledge base of the [agno] library, which
    is not part of this repository, after section 4.2 of the specification.
    [clear] removes every chunk; ingesting a document appends its chunks, or
    fails without committing any of them; [search] returns the chunks of the
    corpus, the empty sequence when the corpus is empty.  Which documents
    fail to ingest, and with which exception, is given by [fails]; a
    successful ingestion returns the number of chunks written. *)
Definition scripted_kb (fails : ContentRequest -> option PyException)
  : KnowledgeBase (list Chunk) nat Chunk :=
  {| kb_clear := fun _ => ([], inr tt);
     kb_add_content := fun req s =>
       match fails req with
       | Some e => (s, inl e)
       | None => (s ++ [chunk_of req], inr 1%nat)
       end;
     kb_search := fun _ s => inr s |}.

Definition never_fails : ContentRequest -> option PyException :=
  fun _ => None.

(** Ingestion of the document named [doc] raises [e]; the others succeed. *)
Definition fails_on (doc : ContentRequest) (e : PyException)
  : ContentRequest -> option PyException :=
  fun req => if String.eqb (name req) (name doc) then Some e else None.

(** The exception of a request that timed out, as its text reads. *)
Definition timed_out : PyException := Exception "Request timed out.".

(** A corpus loaded by an earlier reload, with an empty log. *)
Definition seeded_world : World (list Chunk) :=
  {| store := [ chunk_of usa_swimming_standards;
                chunk_of college_recruiting_standards ];
     log := [];
     calls := [] |}.

End Reload.

(* ===================================================================== *)
(** ** Sections 3, 4 and 7 of [main.py]: what the module hands on         *)
(* ===================================================================== *)

Module Wiring.
Import Startup.

(** The keyword arguments of [PostgresDb(...)], lines 52-56. *)
Record PostgresDb := {
  db_url : option string;
  db_id : string;
  knowledge_table : string
}.

(** The keyword arguments of [PgVector(...)], lines 59-63; the embedder is
    [OpenAIEmbedder()], built without arguments. *)
Record PgVector := {
  table_name : string;
  vector_db_url : option string
}.

(** The keyword arguments of [PostgresTools(...)], lines 77-84. *)
Record PostgresTools := {
  host : option string;
  port : option string;
  db_name : option string;
  user : option string;
  password : option string;
  table_schema : string
}.

Definition db (s : Settings) : PostgresDb :=
  {| db_url := DB_URL s;
     db_id := "swimbench-db";
     knowledge_table := "knowledge_contents" |}.

Definition vector_db (s : Settings) : PgVector :=
  {| table_name := "vectors";
     vector_db_url := DB_URL s |}.

Definition postgres_tools (s : Settings) : PostgresTools :=
  {| host := DATABASE_HOST s;
     port := DATABASE_PORT s;
     db_name := DATABASE_NAME s;
     user := DATABASE_USER s;
     password := DATABASE_PASSWORD s;
     table_schema := "ai" |}.

(** The keyword arguments of [app.add_middleware(CORSMiddleware, ...)],
    lines 213-219. *)
Record CORSMiddleware := {
  allow_origins : list string;
  allow_credentials : bool;
  allow_methods : list string;
  allow_headers : list string
}.

Definition cors_any_origin : CORSMiddleware :=
  {| allow_origins := ["*"];
     allow_credentials := true;
     allow_methods := ["*"];
     allow_headers := ["*"] |}.

(** Lines 212-219: the middlewares [main.py] adds to the application. *)
Definition middleware (s : Settings) : list CORSMiddleware :=
  if String.eqb (ENV s) "production" then [cors_any_origin] else [].

(** What the module has built once it is loaded: the settings, the three
    store configurations and the middlewares it added. *)
Record Loaded := {
  settings : Settings;
  contents_db : PostgresDb;
  vectors : PgVector;
  sql_tools : PostgresTools;
  middlewares : list CORSMiddleware
}.

(** Why the module did not load: the [ValueError] of line 42, or an
    exception raised inside a library constructor. *)
Inductive LoadError :=
| Raised (e : StartupError)
| LibraryRaised (e : Reload.PyException).

Section WithLibraries.

(** Lines 52-207 call [PostgresDb], [PgVector], [OpenAIEmbedder],
    [Knowledge], [PostgresTools], [Agent], [AgentOS] and [get_app].  They
    are not code of this module and any of them may raise: [build s] is the
    exception they raise on the settings [s], [None] when all return. *)
Variable build : Settings -> option Reload.PyException.

(** Lines 31-219 in order: the environment block, the library
    constructors, then the middleware. *)
Definition load_module (environ : Environ) : LoadError + Loaded :=
  match load_environment environ with
  | inl e => inl (Raised e)
  | inr s =>
      match build s with
      | Some e => inl (LibraryRaised e)
      | None => inr {| settings := s;
                       contents_db := db s;
                       vectors := vector_db s;
                       sql_tools := postgres_tools s;
                       middlewares := middleware s |}
      end
  end.

End WithLibraries.

(** Constructors that return on every configuration, for the examples. *)
Definition constructors_return : Settings -> option Reload.PyException :=
  fun _ => None.

(** The variable the knowledge base is configured from, and the five the SQL
    tool is configured from. *)
Definition knowledge_variables : list string :=
  [ "DATABASE_CONNECTION_STRING" ].

Definition tool_variables : list string :=
  [ "DATABASE_HOST"; "DATABASE_PORT"; "DATABASE_NAME";
    "DATABASE_USER"; "DATABASE_PASSWORD" ].

(** A deployment configured by its connection string only, in production. *)
Definition production_environ : Environ :=
  <[ "ENV" := "production" ]>
    (<[ "OPENAI_API_KEY" := "sk-test" ]>
       (<[ "DATABASE_CONNECTION_STRING" := "postgresql://ai:ai@db:5432/ai" ]> ∅)).

End Wiring.

(* ===================================================================== *)
(** ** The [__main__] block of [main.py]                                  *)
(* ===================================================================== *)

Module Main.
Import Startup.

(** The keyword arguments of [uvicorn.run("main:app", ...)], lines 281-286. *)
Record UvicornRun := {
  app : string;
  host : string;
  port : Z;
  reload : bool
}.

Section WithInt.

(** Python's built-in [int] on a string: the integer, or the [ValueError]
    it raises.  It is not code of this module and stays a parameter. *)
Variable int : string -> StartupError + Z.

(** Lines 278-286.  [os.getenv("PORT", 8000)] is the string of the
    environment, or the integer [8000] when the variable is absent. *)
Definition main (environ : Environ) (s : Settings)
  : StartupError + UvicornRun :=
  let port :=
    match getenv environ "PORT" with
    | Some p => int p
    | None => inr 8000%Z
    end in
  match port with
  | inl e => inl e
  | inr port =>
      let use_reload := String.eqb (ENV s) "development" in
      inr {| app := "main:app";
             host := "0.0.0.0";
             port := port;
             reload := use_reload |}
  end.

(** The constructors of lines 52-207, as in [Wiring.load_module]. *)
Variable build : Settings -> option Reload.PyException.

(** [python main.py]: the module is loaded, then the [__main__] block runs.
    The result is the middlewares added and the server started. *)
Definition run_as_script (environ : Environ)
  : Wiring.LoadError + (list Wiring.CORSMiddleware * UvicornRun) :=
  match Wiring.load_module build environ with
  | inl e => inl e
  | inr m =>
      match main environ (Wiring.settings m) with
      | inl e => inl (Wiring.Raised e)
      | inr server => inr (Wiring.middlewares m, server)
      end
  end.

End WithInt.

(** A reading of decimal digits, enough to run the examples: it accepts the
    strings made of the digits [0] to [9] only.  Python's [int] accepts
    more (a sign, surrounding blanks, underscores between digits); the two
    agree on the strings of the examples. *)
Fixpoint digits (s : string) (acc : Z) : option Z :=
  match s with
  | EmptyString => Some acc
  | String c rest =>
      let n := Ascii.nat_of_ascii c in
      if andb (Nat.leb 48 n) (Nat.leb n 57)
      then digits rest (10 * acc + Z.of_nat (n - 48))%Z
      else None
  end.

Definition int_of_digits (s : string) : StartupError + Z :=
  match s with
  | EmptyString => inl (ValueError "invalid literal for int() with base 10")
  | _ => match digits s 0%Z with
         | Some n => inr n
         | None => inl (ValueError "invalid literal for int() with base 10")
         end
  end.

(** A development machine: the key, the connection string, a port, and
    [ENV] left unset. *)
Definition development_environ : Environ :=
  <[ "PORT" := "9000" ]>
    (<[ "OPENAI_API_KEY" := "sk-test" ]>
       (<[ "DATABASE_CONNECTION_STRING" := "postgresql://ai:ai@localhost:5432/ai" ]> ∅)).

End Main.


(* ===================================================================== *)
(** ** Start-up: theorems                                                 *)
(* ===================================================================== *)

Module StartupFacts.
Import Startup.

Lemma truthy_false (v : option string) :
  truthy v = false <-> v = None \/ v = Some "".
Proof.
  destruct v as [s|]; simpl.
  - rewrite negb_false_iff, String.eqb_eq. split.
    + intros ->. now right.
    + intros [H|H]; congruence.
  - split; [now left | reflexivity].
Qed.

Lemma load_environment_raises (environ : Environ) :
  truthy (getenv environ "OPENAI_API_KEY") = false ->
  load_environment environ = inl (ValueError "OPENAI_API_KEY not set in .env").
Proof. unfold load_environment. intros ->. reflexivity. Qed.

Lemma load_environment_returns (environ : Environ) :
  truthy (getenv environ "OPENAI_API_KEY") = true ->
  exists s, load_environment environ = inr s
            /\ DB_URL s = getenv environ "DATABASE_CONNECTION_STRING".
Proof. unfold load_environment. intros ->. simpl. eauto. Qed.

Lemma aborts_iff_falsy (environ : Environ) :
  aborts environ <-> truthy (getenv environ "OPENAI_API_KEY") = false.
Proof.
  split.
  - intros [e He]. destruct (truthy _) eqn:Ht; [|reflexivity].
    destruct (load_environment_returns environ Ht) as (s & Hs & _).
    congruence.
  - intros Ht. eexists. now apply load_environment_raises.
Qed.

Lemma database_variable_not_key (k : string) :
  k ∈ database_variables -> k <> "OPENAI_API_KEY".
Proof.
  unfold database_variables. rewrite !elem_of_cons, elem_of_nil.
  intros H ->. repeat destruct H as [H|H]; try discriminate H. exact H.
Qed.



(** C10 (as amended).  The environment block aborts start-up with the
    [ValueError] exactly when [OPENAI_API_KEY] is absent or present with the
    empty string as its value; otherwise it returns the settings.  Setting,
    changing or removing any of the six database connection variables never
    changes whether start-up aborts: none of them is checked. *)
Theorem startup_aborts_iff_key_absent_or_empty (environ : Environ) :
  (load_environment environ = inl (ValueError "OPENAI_API_KEY not set in .env")
   <-> getenv environ "OPENAI_API_KEY" = None
       \/ getenv environ "OPENAI_API_KEY" = Some "")
  /\ ((exists s, load_environment environ = inr s)
      <-> exists key, getenv environ "OPENAI_API_KEY" = Some key /\ key <> "")
  /\ Forall (fun k => forall v, aborts (<[k := v]> environ) <-> aborts environ)
            database_variables
  /\ Forall (fun k => aborts (delete k environ) <-> aborts environ)
            database_variables.
Proof.
  split; [|split; [|split]].
  - rewrite <- truthy_false. split.
    + intros H. apply aborts_iff_falsy. now exists (ValueError "OPENAI_API_KEY not set in .env").
    + apply load_environment_raises.
  - split.
    + intros [s Hs]. destruct (truthy (getenv environ "OPENAI_API_KEY")) eqn:Ht.
      * destruct (getenv environ "OPENAI_API_KEY") as [key|]; [|discriminate Ht].
        exists key. split; [reflexivity|]. intros ->. discriminate Ht.
      * rewrite (load_environment_raises _ Ht) in Hs. discriminate Hs.
    + intros (key & Hk & Hne).
      destruct (load_environment_returns environ) as (s & Hs & _); [|eauto].
      rewrite Hk. simpl. apply negb_true_iff, String.eqb_neq, Hne.
  - apply Forall_forall. intros k Hk v. rewrite !aborts_iff_falsy.
    unfold getenv. rewrite lookup_insert_ne; [reflexivity|].
    now apply database_variable_not_key.
  - apply Forall_forall. intros k Hk. rewrite !aborts_iff_falsy.
    unfold getenv. rewrite lookup_delete_ne; [reflexivity|].
    now apply database_variable_not_key.
Qed.

(** C10 (as stated) fails: with [OPENAI_API_KEY] present in the environment
    and empty, the variable is not unset, and start-up still aborts with the
    [ValueError]. *)
Lemma startup_aborts_on_empty_key :
  getenv empty_key_environ "OPENAI_API_KEY" = Some ""
  /\ getenv empty_key_environ "OPENAI_API_KEY" <> None
  /\ load_environment empty_key_environ
     = inl (ValueError "OPENAI_API_KEY not set in .env").
Proof.
  assert (H : getenv empty_key_environ "OPENAI_API_KEY" = Some "").
  { unfold getenv, empty_key_environ. apply lookup_insert_eq. }
  split; [exact H|]. split.
  - rewrite H. discriminate.
  - apply load_environment_raises. now rewrite H.
Qed.

(** With the key set and every database variable absent, start-up goes
    through and [DB_URL] is [None]. *)
Example startup_without_database_variables :
  exists s, load_environment key_only_environ = inr s /\ DB_URL s = None.
Proof.
  destruct (load_environment_returns key_only_environ) as (s & Hs & Hurl).
  - unfold getenv, key_only_environ. now rewrite lookup_singleton_eq.
  - exists s. split; [exact Hs|]. rewrite Hurl.
    unfold getenv, key_only_environ. now apply lookup_singleton_ne.
Qed.

End StartupFacts.

(* ===================================================================== *)
(** ** The reload endpoint: theorems                                      *)
(* ===================================================================== *)

Module ReloadFacts.
Import Reload.

Section Run.
Context {Store Result Hit : Type}.
Variable K : KnowledgeBase Store Result Hit.

Abbreviation Co := (@Coro Result Hit).

(** Sequencing runs the first part, then the second on the world it left;
    an exception of the first part skips the second. *)
Lemma run_bind {E A B} (c : Co E A) (f : A -> Co E B) (w : World Store) :
  run K (bind c f) w =
  match run K c w with
  | (w', inr a) => run K (f a) w'
  | (w', inl e) => (w', inl e)
  end.
Proof.
  revert w. induction c as [a|e|lvl msg k IH|k IH|req k IH|q k IH];
    intros w; cbn.
  - reflexivity.
  - reflexivity.
  - apply IH.
  - destruct (kb_clear K (store w)) as [s r]. apply IH.
  - destruct (kb_add_content K req (store w)) as [s r]. apply IH.
  - apply IH.
Qed.

(** [try]/[except]: the handler runs on the world the body left when it
    raised; nothing is undone. *)
Lemma run_try_except {E E' A} (c : Co E A) (h : E -> Co E' A)
      (w : World Store) :
  run K (try_except c h) w =
  match run K c w with
  | (w', inr a) => (w', inr a)
  | (w', inl e) => run K (h e) w'
  end.
Proof.
  revert w. induction c as [a|e|lvl msg k IH|k IH|req k IH|q k IH];
    intros w; cbn.
  - reflexivity.
  - reflexivity.
  - apply IH.
  - destruct (kb_clear K (store w)) as [s r]. apply IH.
  - destruct (kb_add_content K req (store w)) as [s r]. apply IH.
  - apply IH.
Qed.

(** Running to the end is running the synchronous prefix, then the rest. *)
Lemma run_sync {E A} (c : Co E A) (w : World Store) :
  run K c w = run K (sync c w).2 (sync c w).1.
Proof.
  revert w. induction c as [a|e|lvl msg k IH|k IH|req k IH|q k IH];
    intros w; try reflexivity.
  cbn. apply IH.
Qed.

(** Running to the end is one turn of the event loop, then the rest. *)
Lemma run_step {E A} (c : Co E A) (w : World Store) :
  run K c w = run K (step K c w).2 (step K c w).1.
Proof.
  rewrite (run_sync c w). unfold step.
  destruct (sync c w) as [w1 c1]. cbn [fst snd].
  destruct c1 as [a|e|lvl msg k|k|req k|q k]; try reflexivity; cbn [run].
  - destruct (kb_clear K (store w1)) as [s r]. apply run_sync.
  - destruct (kb_add_content K req (store w1)) as [s r]. apply run_sync.
  - apply run_sync.
Qed.

Lemma finished_outcome {A} (r : PyException + A) :
  finished (outcome (Result := Result) (Hit := Hit) r) = Some r.
Proof. destruct r; reflexivity. Qed.

(** Waking the reload task never touches the turn, and conversely. *)
Lemma exec_reload_turn (n : nat) (sys : System) :
  turn (exec K (repeat TReload n) sys) = turn sys.
Proof.
  revert sys. induction n as [|n IH]; intros sys; [reflexivity|].
  cbn [repeat]. unfold exec in *. cbn [fold_left]. rewrite IH.
  unfold schedule. destruct (step K (reload sys) (world sys)). reflexivity.
Qed.

Lemma exec_app (o1 o2 : list Task) (sys : System (Store := Store)) :
  exec K (o1 ++ o2) sys = exec K o2 (exec K o1 sys).
Proof. unfold exec. apply fold_left_app. Qed.

(** The search of a turn returns what the knowledge base answers on the
    store as it is at that moment. *)
Lemma schedule_turn (sys : System) (query : string) :
  turn sys = search_knowledge query ->
  finished (turn (schedule K sys TTurn))
  = Some (kb_search K query (store (world sys))).
Proof.
  intros Hq. unfold schedule, step. rewrite Hq. cbn.
  destruct (kb_search K query (store (world sys))); reflexivity.
Qed.

(** Scheduled alone, the reload task needs three turns of the event loop
    and ends as the sequential run does: same world, same response. *)
Lemma exec_reload_alone (w : World Store) (query : string) :
  let sys := exec K [TReload; TReload; TReload] (initial w query) in
  finished (reload sys) = Some (run K load_knowledge w).2
  /\ world sys = (run K load_knowledge w).1.
Proof.
  cbv zeta. unfold load_knowledge. cbn.
  destruct (kb_clear K (store w)) as [s0 [e|[]]]; cbn; [now split|].
  destruct (kb_add_content K usa_swimming_standards s0) as [s1 [e|r1]];
    cbn; [now split|].
  destruct (kb_add_content K college_recruiting_standards s1) as [s2 [e|r2]];
    cbn; now split.
Qed.

(** C1 (as amended).  Every reload ends either with the one fixed success
    body or with an HTTP error of status 500 whose detail is
    "Error loading knowledge: " followed by the text of an exception.  The
    reload calls [clear], then ingests the USA Swimming standards, then the
    college recruiting standards, and stops at the first call that raises.
    When no call raises it returns the success body naming both documents,
    whatever the two ingestions returned.  When a call raises, the error
    carries the text of that exception, and the store is left exactly as the
    calls made so far left it: after a failure on the second document, the
    store is the one the first ingestion produced, as changed by the failing
    call only (nothing is rolled back). *)
Theorem load_knowledge_report (w : World Store) :
  let out := run K load_knowledge w in
  (out.2 = inr success_body
   \/ exists e, out.2 = inl {| status_code := 500;
                               detail := "Error loading knowledge: " +:+ str e |})
  /\ (forall s0 s1 s2 r1 r2,
      kb_clear K (store w) = (s0, inr tt) ->
      kb_add_content K usa_swimming_standards s0 = (s1, inr r1) ->
      kb_add_content K college_recruiting_standards s1 = (s2, inr r2) ->
      out.2 = inr success_body
      /\ store out.1 = s2
      /\ calls out.1 = calls w ++ [ CallClear;
                                    CallAddContent usa_swimming_standards;
                                    CallAddContent college_recruiting_standards ])
  /\ (forall s0 e,
      kb_clear K (store w) = (s0, inl e) ->
      out.2 = inl {| status_code := 500;
                     detail := "Error loading knowledge: " +:+ str e |}
      /\ store out.1 = s0
      /\ calls out.1 = calls w ++ [ CallClear ])
  /\ (forall s0 s1 e,
      kb_clear K (store w) = (s0, inr tt) ->
      kb_add_content K usa_swimming_standards s0 = (s1, inl e) ->
      out.2 = inl {| status_code := 500;
                     detail := "Error loading knowledge: " +:+ str e |}
      /\ store out.1 = s1
      /\ calls out.1 = calls w ++ [ CallClear;
                                    CallAddContent usa_swimming_standards ])
  /\ (forall s0 s1 s2 r1 e,
      kb_clear K (store w) = (s0, inr tt) ->
      kb_add_content K usa_swimming_standards s0 = (s1, inr r1) ->
      kb_add_content K college_recruiting_standards s1 = (s2, inl e) ->
      out.2 = inl {| status_code := 500;
                     detail := "Error loading knowledge: " +:+ str e |}
      /\ store out.1 = s2
      /\ calls out.1 = calls w ++ [ CallClear;
                                    CallAddContent usa_swimming_standards;
                                    CallAddContent college_recruiting_standards ]).
Proof.
  cbv zeta. unfold load_knowledge. split; [|split; [|split; [|split]]].
  - cbn. destruct (kb_clear K (store w)) as [s0 [e|[]]]; cbn; [eauto|].
    destruct (kb_add_content K usa_swimming_standards s0) as [s1 [e|r1]];
      cbn; [eauto|].
    destruct (kb_add_content K college_recruiting_standards s1) as [s2 [e|r2]];
      cbn; eauto.
  - intros s0 s1 s2 r1 r2 Hclear Hfirst Hsecond.
    cbn. rewrite Hclear. cbn. rewrite Hfirst. cbn. rewrite Hsecond. cbn.
    now rewrite <- !app_assoc.
  - intros s0 e Hclear.
    cbn. rewrite Hclear. cbn. auto.
  - intros s0 s1 e Hclear Hfirst.
    cbn. rewrite Hclear. cbn. rewrite Hfirst. cbn.
    now rewrite <- !app_assoc.
  - intros s0 s1 s2 r1 e Hclear Hfirst Hsecond.
    cbn. rewrite Hclear. cbn. rewrite Hfirst. cbn. rewrite Hsecond. cbn.
    now rewrite <- !app_assoc.
Qed.

(** C9 (as amended).  The reload takes no lock and keeps no second copy of
    the corpus: [clear] and the two ingestions are three separate turns of
    the event loop.  A search scheduled after [n] turns of the reload (and
    before the remaining ones) is answered on the store exactly as those
    [n] turns left it: the previous corpus before the first turn; after the
    first turn the store as [clear] left it; after the second, when [clear]
    returned, the store as the ingestion of the USA Swimming standards left
    it; after the third, when that ingestion returned, the store as the
    ingestion of the college recruiting standards left it.  A call that
    raises ends the reload, and the store stays as that call left it. *)
Theorem search_observes_reload_progress
        (w : World Store) (query : string) (n m : nat) :
  let sys0 := initial w query in
  let after k := world (exec K (repeat TReload k) sys0) in
  finished (turn (exec K (repeat TReload n ++ TTurn :: repeat TReload m) sys0))
  = Some (kb_search K query (store (after n)))
  /\ store (after 0) = store w
  /\ store (after 1) = (kb_clear K (store w)).1
  /\ calls (after 1) = calls w ++ [ CallClear ]
  /\ (forall s0,
        kb_clear K (store w) = (s0, inr tt) ->
        store (after 2) = (kb_add_content K usa_swimming_standards s0).1
        /\ calls (after 2)
           = calls w ++ [ CallClear; CallAddContent usa_swimming_standards ])
  /\ (forall s0 s1 r1,
        kb_clear K (store w) = (s0, inr tt) ->
        kb_add_content K usa_swimming_standards s0 = (s1, inr r1) ->
        store (after 3) = (kb_add_content K college_recruiting_standards s1).1
        /\ calls (after 3)
           = calls w ++ [ CallClear;
                          CallAddContent usa_swimming_standards;
                          CallAddContent college_recruiting_standards ])
  /\ (forall s0 e,
        kb_clear K (store w) = (s0, inl e) ->
        store (after 2) = s0 /\ store (after 3) = s0
        /\ calls (after 3) = calls w ++ [ CallClear ])
  /\ (forall s0 s1 e,
        kb_clear K (store w) = (s0, inr tt) ->
        kb_add_content K usa_swimming_standards s0 = (s1, inl e) ->
        store (after 3) = s1
        /\ calls (after 3)
           = calls w ++ [ CallClear; CallAddContent usa_swimming_standards ]).
Proof.
  cbv zeta. split; [|split; [|split; [|split; [|split; [|split; [|split]]]]]].
  - rewrite exec_app. change (TTurn :: repeat TReload m)
      with ([TTurn] ++ repeat TReload m).
    rewrite exec_app, exec_reload_turn.
    apply schedule_turn. apply exec_reload_turn.
  - reflexivity.
  - cbn. destruct (kb_clear K (store w)) as [s [e|[]]]; reflexivity.
  - cbn. destruct (kb_clear K (store w)) as [s [e|[]]]; reflexivity.
  - intros s0 Hclear. cbn. rewrite Hclear. cbn.
    destruct (kb_add_content K usa_swimming_standards s0) as [s1 [e|r1]];
      cbn; now rewrite <- !app_assoc.
  - intros s0 s1 r1 Hclear Hfirst. cbn. rewrite Hclear. cbn.
    rewrite Hfirst. cbn.
    destruct (kb_add_content K college_recruiting_standards s1)
      as [s2 [e|r2]]; cbn; now rewrite <- !app_assoc.
  - intros s0 e Hclear. cbn. rewrite Hclear. cbn. auto.
  - intros s0 s1 e Hclear Hfirst. cbn. rewrite Hclear. cbn.
    rewrite Hfirst. cbn. now rewrite <- !app_assoc.
Qed.

End Run.

(** *** Concrete runs *)

(** C1, a run of the theorem: the second ingestion raises.  The first
    document stays in the corpus and the response is the error. *)
Lemma load_knowledge_report_second_fails :
  let K := scripted_kb (fails_on college_recruiting_standards timed_out) in
  let out := run K load_knowledge seeded_world in
  kb_clear K (store seeded_world) = ([], inr tt)
  /\ kb_add_content K usa_swimming_standards []
     = ([chunk_of usa_swimming_standards], inr 1%nat)
  /\ kb_add_content K college_recruiting_standards
                    [chunk_of usa_swimming_standards]
     = ([chunk_of usa_swimming_standards], inl timed_out)
  /\ out.2 = inl {| status_code := 500;
                    detail := "Error loading knowledge: Request timed out." |}
  /\ store out.1 = [chunk_of usa_swimming_standards].
Proof.
  cbv zeta.
  pose proof (load_knowledge_report
                (scripted_kb (fails_on college_recruiting_standards timed_out))
                seeded_world) as (_ & _ & _ & _ & H).
  specialize (H [] [chunk_of usa_swimming_standards]
                [chunk_of usa_swimming_standards] 1%nat timed_out
                eq_refl eq_refl eq_refl).
  destruct H as (Hresp & Hstore & _).
  repeat split; try reflexivity; assumption.
Defined.

(** C1 (as stated) fails: the report is not per source.  A failure of the
    second document and a failure of the first one (with the same exception
    text) give the same response and the same log, although the first
    document is in the corpus in one run and absent in the other. *)
Lemma load_knowledge_failures_reported_alike :
  let first := run (scripted_kb (fails_on usa_swimming_standards timed_out))
                   load_knowledge seeded_world in
  let second := run (scripted_kb (fails_on college_recruiting_standards timed_out))
                    load_knowledge seeded_world in
  first.2 = second.2
  /\ log first.1 = log second.1
  /\ store first.1 = []
  /\ store second.1 = [chunk_of usa_swimming_standards].
Proof. cbv zeta. repeat split; reflexivity. Qed.

(** C9 (as stated) fails: on a corpus that is not empty, a search scheduled
    between the [clear] of a reload and its first ingestion gets the empty
    sequence; the reload itself completes with both documents. *)
Lemma search_sees_empty_corpus_during_reload :
  let K := scripted_kb never_fails in
  let sys := exec K [TReload; TTurn; TReload; TReload]
                  (initial seeded_world "100 freestyle AAA time") in
  store seeded_world <> []
  /\ finished (turn sys) = Some (inr [])
  /\ finished (reload sys) = Some (inr success_body)
  /\ store (world sys) = store seeded_world.
Proof. cbv zeta. repeat split; try reflexivity. discriminate. Qed.

(** C9, a run of the theorem: a search scheduled after the second turn of
    a reload, on a knowledge base where nothing fails, gets the first
    document alone. *)
Lemma search_observes_reload_progress_run :
  let K := scripted_kb never_fails in
  let sys0 := initial seeded_world "100 freestyle AAA time" in
  kb_clear K (store seeded_world) = ([], inr tt)
  /\ store (world (exec K [TReload; TReload] sys0))
     = [chunk_of usa_swimming_standards]
  /\ finished (turn (exec K [TReload; TReload; TTurn; TReload] sys0))
     = Some (inr [chunk_of usa_swimming_standards]).
Proof.
  cbv zeta.
  destruct (search_observes_reload_progress (scripted_kb never_fails)
              seeded_world "100 freestyle AAA time" 2 1)
    as (Hseen & _ & _ & _ & Hsecond & _).
  destruct (Hsecond [] eq_refl) as [Hstore _].
  split; [reflexivity|]. split; [exact Hstore|].
  etransitivity; [exact Hseen|].
  cbn [repeat] in Hstore. cbn [repeat]. rewrite Hstore. reflexivity.
Defined.

(** The same search scheduled before the reload starts, or after it has
    finished, gets the two documents. *)
Example search_outside_reload :
  let K := scripted_kb never_fails in
  let sys0 := initial seeded_world "100 freestyle AAA time" in
  finished (turn (exec K [TTurn; TReload; TReload; TReload] sys0))
  = Some (inr (store seeded_world))
  /\ finished (turn (exec K [TReload; TReload; TReload; TTurn] sys0))
     = Some (inr (store seeded_world)).
Proof. cbv zeta. split; reflexivity. Qed.

End ReloadFacts.

(* ===================================================================== *)
(** ** Module wiring and the [__main__] block: theorems                   *)
(* ===================================================================== *)

Module WiringFacts.
Import Startup Wiring.

Section WithLibraries.
Variable build : Settings -> option Reload.PyException.

(** When the environment block returns, each name holds what [os.getenv]
    read. *)
Lemma load_environment_fields (environ : Environ) (s : Settings) :
  load_environment environ = inr s ->
  s = {| OPENAI_API_KEY := getenv environ "OPENAI_API_KEY";
         DATABASE_CONNECTION_STRING := getenv environ "DATABASE_CONNECTION_STRING";
         DATABASE_HOST := getenv environ "DATABASE_HOST";
         DATABASE_PORT := getenv environ "DATABASE_PORT";
         DATABASE_NAME := getenv environ "DATABASE_NAME";
         DATABASE_USER := getenv environ "DATABASE_USER";
         DATABASE_PASSWORD := getenv environ "DATABASE_PASSWORD";
         ENV := getenv_default environ "ENV" "development";
         DB_URL := getenv environ "DATABASE_CONNECTION_STRING" |}.
Proof.
  unfold load_environment.
  destruct (negb (truthy (getenv environ "OPENAI_API_KEY")));
    [discriminate|]. intros H. now inversion H.
Qed.

Lemma load_module_settings (environ : Environ) (m : Loaded) :
  load_module build environ = inr m ->
  load_environment environ = inr (settings m)
  /\ build (settings m) = None
  /\ contents_db m = db (settings m)
  /\ vectors m = vector_db (settings m)
  /\ sql_tools m = postgres_tools (settings m)
  /\ middlewares m = middleware (settings m).
Proof.
  unfold load_module. destruct (load_environment environ) as [e|s];
    [discriminate|]. destruct (build s) eqn:Hb; [discriminate|].
  intros H. inversion H. subst m. cbn. auto 10.
Qed.

(** [ENV] as the module sees it, against the raw environment. *)
Lemma env_is (environ : Environ) (value : string) :
  value <> "development" ->
  getenv_default environ "ENV" "development" = value
  <-> getenv environ "ENV" = Some value.
Proof.
  intros Hne. unfold getenv_default, getenv.
  destruct (environ !! "ENV") as [v|]; cbn.
  - split; congruence.
  - split; [congruence | discriminate].
Qed.

Lemma env_is_development (environ : Environ) :
  getenv_default environ "ENV" "development" = "development"
  <-> getenv environ "ENV" = None \/ getenv environ "ENV" = Some "development".
Proof.
  unfold getenv_default, getenv.
  destruct (environ !! "ENV") as [v|]; cbn.
  - split; [intros ->; now right | intros [H|H]; congruence].
  - split; [now left | reflexivity].
Qed.

Lemma middleware_cases (s : Settings) :
  (ENV s = "production" /\ middleware s = [cors_any_origin])
  \/ (ENV s <> "production" /\ middleware s = []).
Proof.
  unfold middleware. destruct (String.eqb_spec (ENV s) "production"); auto.
Qed.

(** A variable of one group is not a variable the other group, or the
    start-up check, reads. *)
Lemma tool_variable_other (k : string) :
  k ∈ tool_variables ->
  k <> "OPENAI_API_KEY" /\ k <> "DATABASE_CONNECTION_STRING" /\ k <> "ENV".
Proof.
  unfold tool_variables. rewrite !elem_of_cons, elem_of_nil.
  intros H. repeat destruct H as [H|H]; try (subst k; repeat split; discriminate).
  destruct H.
Qed.

(** X1.  The CORS middleware is added exactly when the environment holds [ENV]
    with the value "production", spelled so; with [ENV] absent or holding
    anything else, the module adds no middleware.  When it is added, it
    allows every origin, method and header, with credentials. *)
Theorem cors_iff_production (environ : Environ) (m : Loaded) :
  load_module build environ = inr m ->
  (middlewares m = [cors_any_origin]
   <-> getenv environ "ENV" = Some "production")
  /\ (middlewares m = [] <-> getenv environ "ENV" <> Some "production").
Proof.
  intros Hm. apply load_module_settings in Hm as (Hs & _ & _ & _ & _ & ->).
  apply load_environment_fields in Hs.
  assert (Henv : ENV (settings m) = "production"
                 <-> getenv environ "ENV" = Some "production").
  { rewrite Hs. cbn. apply env_is. discriminate. }
  destruct (middleware_cases (settings m)) as [[He ->]|[He ->]].
  - split; split; try discriminate; intros H.
    + now apply Henv.
    + reflexivity.
    + exfalso. apply H. now apply Henv.
  - split; split; try discriminate; intros H.
    + exfalso. apply He. now apply Henv.
    + intros H'. apply He. now apply Henv.
    + reflexivity.
Qed.

(** X3.  The knowledge base (contents table and vector table) is configured
    from [DATABASE_CONNECTION_STRING] alone, both with the same URL, and the
    SQL tool from the five other database variables alone, each passed on
    as read: host from [DATABASE_HOST], port from [DATABASE_PORT], db_name
    from [DATABASE_NAME], user from [DATABASE_USER], password from
    [DATABASE_PASSWORD], with the schema "ai".  Changing a variable of one
    group never changes the configuration of the other, and a deployment
    that sets the connection string only leaves the SQL tool with no host,
    port, database, user or password. *)
Theorem knowledge_and_tools_configured_apart (environ : Environ) (m : Loaded) :
  load_module build environ = inr m ->
  contents_db m = {| db_url := getenv environ "DATABASE_CONNECTION_STRING";
                     db_id := "swimbench-db";
                     knowledge_table := "knowledge_contents" |}
  /\ vectors m = {| table_name := "vectors";
                    vector_db_url := getenv environ "DATABASE_CONNECTION_STRING" |}
  /\ sql_tools m = {| host := getenv environ "DATABASE_HOST";
                      port := getenv environ "DATABASE_PORT";
                      db_name := getenv environ "DATABASE_NAME";
                      user := getenv environ "DATABASE_USER";
                      password := getenv environ "DATABASE_PASSWORD";
                      table_schema := "ai" |}
  /\ vector_db_url (vectors m) = db_url (contents_db m)
  /\ (forall k v m',
        k ∈ tool_variables ->
        load_module build (<[k := v]> environ) = inr m' ->
        contents_db m' = contents_db m /\ vectors m' = vectors m)
  /\ (forall v m',
        load_module build (<["DATABASE_CONNECTION_STRING" := v]> environ)
        = inr m' ->
        sql_tools m' = sql_tools m)
  /\ (Forall (fun k => getenv environ k = None) tool_variables ->
      sql_tools m = {| host := None; port := None; db_name := None;
                       user := None; password := None;
                       table_schema := "ai" |}).
Proof.
  intros Hm.
  apply load_module_settings in Hm as (Hs & _ & Hdb & Hvec & Htools & _).
  apply load_environment_fields in Hs.
  rewrite Hdb, Hvec, Htools, Hs. unfold db, vector_db, postgres_tools. cbn.
  split; [reflexivity|]. split; [reflexivity|]. split; [reflexivity|].
  split; [reflexivity|]. split; [|split].
  - intros k v m' Hk Hm'. apply tool_variable_other in Hk as (_ & Hk & _).
    apply load_module_settings in Hm' as (Hs' & _ & -> & -> & _).
    apply load_environment_fields in Hs'. rewrite Hs'. unfold db, vector_db.
    cbn. unfold getenv. now rewrite lookup_insert_ne.
  - intros v m' Hm'.
    apply load_module_settings in Hm' as (Hs' & _ & _ & _ & -> & _).
    apply load_environment_fields in Hs'. rewrite Hs'. unfold postgres_tools.
    cbn. unfold getenv. now rewrite !lookup_insert_ne.
  - unfold tool_variables. rewrite !Forall_cons.
    intros (-> & -> & -> & -> & -> & _). reflexivity.
Qed.

End WithLibraries.

Lemma cors_iff_production_run :
  load_module constructors_return production_environ
  = inr {| settings := {| OPENAI_API_KEY := Some "sk-test";
                          DATABASE_CONNECTION_STRING := Some "postgresql://ai:ai@db:5432/ai";
                          DATABASE_HOST := None;
                          DATABASE_PORT := None;
                          DATABASE_NAME := None;
                          DATABASE_USER := None;
                          DATABASE_PASSWORD := None;
                          ENV := "production";
                          DB_URL := Some "postgresql://ai:ai@db:5432/ai" |};
           contents_db := {| db_url := Some "postgresql://ai:ai@db:5432/ai";
                             db_id := "swimbench-db";
                             knowledge_table := "knowledge_contents" |};
           vectors := {| table_name := "vectors";
                         vector_db_url := Some "postgresql://ai:ai@db:5432/ai" |};
           sql_tools := {| host := None; port := None; db_name := None;
                           user := None; password := None;
                           table_schema := "ai" |};
           middlewares := [cors_any_origin] |}
  /\ getenv production_environ "ENV" = Some "production".
Proof.
  split; [reflexivity|].
  exact (proj1 (proj1 (cors_iff_production constructors_return production_environ _ eq_refl))
               eq_refl).
Defined.

Lemma knowledge_and_tools_configured_apart_run :
  let environ :=
    <["DATABASE_PASSWORD" := "ai"]>
      (<["DATABASE_USER" := "swim"]>
         (<["DATABASE_NAME" := "bench"]>
            (<["DATABASE_PORT" := "5432"]>
               (<["DATABASE_HOST" := "db"]> production_environ)))) in
  exists m,
    load_module constructors_return environ = inr m
    /\ db_url (contents_db m) = Some "postgresql://ai:ai@db:5432/ai"
    /\ vector_db_url (vectors m) = Some "postgresql://ai:ai@db:5432/ai"
    /\ sql_tools m = {| host := Some "db"; port := Some "5432";
                        db_name := Some "bench"; user := Some "swim";
                        password := Some "ai"; table_schema := "ai" |}.
Proof.
  cbv zeta.
  destruct (load_module constructors_return
              (<["DATABASE_PASSWORD" := "ai"]>
                 (<["DATABASE_USER" := "swim"]>
                    (<["DATABASE_NAME" := "bench"]>
                       (<["DATABASE_PORT" := "5432"]>
                          (<["DATABASE_HOST" := "db"]> production_environ))))))
    as [e|m] eqn:Hm; [discriminate Hm|].
  destruct (knowledge_and_tools_configured_apart constructors_return _ m Hm)
    as (Hdb & Hvec & Htools & _).
  exists m. split; [reflexivity|].
  rewrite Hdb, Hvec, Htools. repeat split.
Defined.

End WiringFacts.

Module MainFacts.
Import Startup Wiring Main.

(** X2.  Run as a script, the module asks the server to reload on change exactly
    when [ENV] is absent or holds "development"; it listens on every
    interface, on port 8000 when [PORT] is absent.  Reloading and the CORS
    middleware never go together: in production there is no reload, with
    reload there is no middleware. *)
Theorem reload_iff_development
        (int : string -> StartupError + Z)
        (build : Settings -> option Reload.PyException) (environ : Environ)
        (mw : list CORSMiddleware) (server : UvicornRun) :
  run_as_script int build environ = inr (mw, server) ->
  (reload server = true
   <-> getenv environ "ENV" = None \/ getenv environ "ENV" = Some "development")
  /\ (reload server = true -> mw = [])
  /\ (mw <> [] -> reload server = false)
  /\ Main.host server = "0.0.0.0"
  /\ (getenv environ "PORT" = None -> Main.port server = 8000%Z).
Proof.
  unfold run_as_script. intros Hrun.
  destruct (load_module build environ) as [e|m] eqn:Hm; [discriminate Hrun|].
  apply WiringFacts.load_module_settings in Hm as (Hs & _ & _ & _ & _ & Hmw).
  apply WiringFacts.load_environment_fields in Hs.
  unfold main in Hrun.
  assert (Hreload : reload server = String.eqb (ENV (settings m)) "development"
                    /\ Main.host server = "0.0.0.0"
                    /\ (getenv environ "PORT" = None -> Main.port server = 8000%Z)
                    /\ mw = middlewares m).
  { destruct (getenv environ "PORT") as [p|].
    - destruct (int p) as [e|n]; [discriminate Hrun|].
      injection Hrun as <- <-. cbn. repeat split; auto. discriminate.
    - injection Hrun as <- <-. cbn. repeat split; auto. }
  destruct Hreload as (Hreload & Hhost & Hport & ->).
  assert (Hdev : reload server = true
                 <-> getenv environ "ENV" = None
                     \/ getenv environ "ENV" = Some "development").
  { rewrite Hreload, String.eqb_eq, Hs. cbn.
    apply WiringFacts.env_is_development. }
  assert (Hexcl : reload server = true -> middlewares m = []).
  { rewrite Hreload, String.eqb_eq, Hmw. intros He.
    destruct (WiringFacts.middleware_cases (settings m)) as [[Hp _]|[_ ->]];
      [|reflexivity].
    rewrite He in Hp. discriminate Hp. }
  split; [exact Hdev|]. split; [exact Hexcl|]. split; [|split; assumption].
  intros Hne. destruct (reload server); [|reflexivity].
  exfalso. now apply Hne, Hexcl.
Qed.

Lemma reload_iff_development_run :
  run_as_script int_of_digits constructors_return development_environ
  = inr ([], {| app := "main:app"; Main.host := "0.0.0.0";
                Main.port := 9000; reload := true |})
  /\ getenv development_environ "ENV" = None.
Proof.
  split; [reflexivity|].
  destruct (proj1 (proj1 (reload_iff_development int_of_digits
                            constructors_return development_environ
                            [] _ eq_refl)) eq_refl)
    as [H|H]; [exact H | discriminate H].
Defined.



End MainFacts.

(* ===================================================================== *)
(** ** The reload endpoint: what it logs                                  *)
(* ===================================================================== *)

Module ReloadExtra.
Import Reload.

Section Run.
Context {Store Result Hit : Type}.
Variable K : KnowledgeBase Store Result Hit.

(** X4.  In every run in which each awaited call of the knowledge base
    returns or raises an instance of [Exception] (a cancelled request or an
    interpreter exit is not such a run: [except Exception] does not catch
    them), the reload writes exactly two log records: first the INFO record
    of the start, then either the INFO record of completion, when the
    response is the success body, or one ERROR record carrying the same
    exception text as the detail of the HTTP error.  Every such exception
    is logged, and logged once. *)
Theorem load_knowledge_logs_outcome (w : World Store) :
  let out := run K load_knowledge w in
  (out.2 = inr success_body
   /\ log out.1 = log w
        ++ [ (INFO, "Starting SwimBench knowledge loading...");
             (INFO, "SwimBench knowledge loading completed successfully") ])
  \/ (exists e,
        out.2 = inl {| status_code := 500;
                       detail := "Error loading knowledge: " +:+ str e |}
        /\ log out.1 = log w
             ++ [ (INFO, "Starting SwimBench knowledge loading...");
                  (ERROR, "Error loading SwimBench knowledge: " +:+ str e) ]).
Proof.
  cbv zeta. unfold load_knowledge. cbn.
  destruct (kb_clear K (store w)) as [s0 [e|[]]]; cbn.
  { right. exists e. now rewrite <- app_assoc. }
  destruct (kb_add_content K usa_swimming_standards s0) as [s1 [e|r1]]; cbn.
  { right. exists e. now rewrite <- app_assoc. }
  destruct (kb_add_content K college_recruiting_standards s1) as [s2 [e|r2]];
    cbn.
  { right. exists e. now rewrite <- app_assoc. }
  left. now rewrite <- app_assoc.
Qed.

End Run.

End ReloadExtra.
